(** * denomail-logger: the leveled logger of [src/Logger.ts]

    A shallow embedding of the [Logger] class and of [logger_level_color],
    followed by the properties of the logger.

    Conventions of the embedding.
    - A [LoggerLevel] is a TypeScript numeric enum: its values are the
      numbers 0..4, and the type also admits other numbers.  Levels are
      integers here ([Z]); [NaN] and fractions are outside the model.
    - An optional parameter is an [option]; [None] is [undefined].
    - A JavaScript string is the sequence of its UTF-8 bytes ([string]).
      The model covers well-formed strings, on which [TextEncoder.encode]
      only changes the representation; a string with a lone surrogate, which
      the encoder replaces by U+FFFD, is outside the model.
    - The color functions of [std/fmt/colors.ts], the clock and the
      [Deno.Writer] handles belong to the runtime, not to the repository:
      the color functions are a parameter of the development, the clock and
      the writers are fields of the runtime state.
    - Methods run in a small state-and-exception monad over that state. *)

From Stdlib Require Import ZArith String Ascii List Bool Lia.
From Stdlib Require Import Strings.Byte.
Import ListNotations.

Local Open Scope list_scope.
Local Open Scope string_scope.

(** ** The enumeration *)

Module LoggerLevel.

(** [export enum LoggerLevel { Trace, Info, Warn, Error, Fatal }] *)
Definition t : Set := Z.

Definition Trace : t := 0%Z.
Definition Info : t := 1%Z.
Definition Warn : t := 2%Z.
Definition Error : t := 3%Z.
Definition Fatal : t := 4%Z.

(** The reverse mapping [LoggerLevel[l]] of a numeric enum: the member's
    name, or [undefined] for a number that is no member. *)
Definition name (l : t) : option string :=
  if Z.eqb l 0 then Some "Trace"
  else if Z.eqb l 1 then Some "Info"
  else if Z.eqb l 2 then Some "Warn"
  else if Z.eqb l 3 then Some "Error"
  else if Z.eqb l 4 then Some "Fatal"
  else None.

(** The numbers that are members of the enumeration. *)
Definition recognized (l : t) : Prop := (0 <= l <= 4)%Z.

End LoggerLevel.

(** ** The imported color functions *)

Module Colors.

(** The functions of [std/fmt/colors.ts] that the logger refers to,
    identified by their names. *)
Inductive fn : Set :=
| green | brightBlue | yellow | red | brightRed | white.

End Colors.

(** [export const logger_level_color = (l: LoggerLevel): Function] *)
Definition logger_level_color (l : LoggerLevel.t) : Colors.fn :=
  if Z.eqb l LoggerLevel.Trace then Colors.green
  else if Z.eqb l LoggerLevel.Info then Colors.brightBlue
  else if Z.eqb l LoggerLevel.Warn then Colors.yellow
  else if Z.eqb l LoggerLevel.Error then Colors.red
  else if Z.eqb l LoggerLevel.Fatal then Colors.brightRed
  else Colors.white.

(** ** The runtime *)

Module Deno.

(** A [Deno.Writer] handle: the two standard streams, or any other
    resource (a file, a socket) named by its resource id. *)
Inductive Writer : Set :=
| stdout
| stderr
| resource (rid : nat).

End Deno.

(** The fields of an instance of [class Logger]. *)
Record Logger : Set := mkLogger {
  _level : LoggerLevel.t;
  _prefix : string;
  _ostream : option Deno.Writer
}.

(** A reference to a [Logger] object: its index in the heap. *)
Definition ref : Set := nat.

Inductive Error : Set :=
| TypeError          (* a method called through a reference to no object *)
| SinkWriteFailure.  (* [writer.write] rejected *)

(** How a call ends: it returns (an async method: its promise resolves), or
    it throws (its promise rejects). *)
Inductive Completion (A : Type) : Type :=
| Returned (a : A)
| Thrown (e : Error).

Arguments Returned {A} a.
Arguments Thrown {A} e.

Record Runtime : Type := mkRuntime {
  minimum : LoggerLevel.t;   (* the static field [Logger.minimum] *)
  heap : list Logger;        (* the Logger objects allocated so far *)
  utc_now : string;          (* what [new Date().toUTCString()] evaluates to *)
  accepts : Deno.Writer -> bool;
                             (* whether a [write] on the handle resolves *)
  written : list (Deno.Writer * list byte)
                             (* the writes that resolved, oldest first *)
}.

Definition Prog (A : Type) : Type := Runtime -> Completion A * Runtime.

Definition ret {A : Type} (a : A) : Prog A := fun rt => (Returned a, rt).

Definition bind {A B : Type} (c : Prog A) (k : A -> Prog B) : Prog B :=
  fun rt =>
    match c rt with
    | (Returned a, rt') => k a rt'
    | (Thrown e, rt') => (Thrown e, rt')
    end.

Declare Scope prog_scope.
Delimit Scope prog_scope with prog.
Notation "x <- c ;; k" := (bind c (fun x => k))
  (at level 100, c at next level, right associativity) : prog_scope.
Notation "c ;; k" := (bind c (fun _ => k))
  (at level 100, right associativity) : prog_scope.
Local Open Scope prog_scope.

(** Reading [Logger.minimum]. *)
Definition read_minimum : Prog LoggerLevel.t :=
  fun rt => (Returned (minimum rt), rt).

(** [Logger.minimum = l], the assignment any caller may make. *)
Definition write_minimum (l : LoggerLevel.t) : Prog unit :=
  fun rt =>
    (Returned tt,
     mkRuntime l (heap rt) (utc_now rt) (accepts rt) (written rt)).

(** Reading the fields of the object a reference designates. *)
Definition deref (this : ref) : Prog Logger :=
  fun rt =>
    match nth_error (heap rt) this with
    | Some o => (Returned o, rt)
    | None => (Thrown TypeError, rt)
    end.

Fixpoint update (h : list Logger) (i : nat) (o : Logger) : list Logger :=
  match h, i with
  | [], _ => []
  | _ :: h', O => o :: h'
  | x :: h', S i' => x :: update h' i' o
  end.

(** Assigning the fields of the object a reference designates. *)
Definition store (this : ref) (o : Logger) : Prog unit :=
  fun rt =>
    (Returned tt,
     mkRuntime (minimum rt) (update (heap rt) this o) (utc_now rt)
               (accepts rt) (written rt)).

(** Allocating a new object. *)
Definition alloc (o : Logger) : Prog ref :=
  fun rt =>
    (Returned (List.length (heap rt)),
     mkRuntime (minimum rt) (heap rt ++ [o]) (utc_now rt)
               (accepts rt) (written rt)).

(** [new Date().toUTCString()] *)
Definition toUTCString : Prog string :=
  fun rt => (Returned (utc_now rt), rt).

(** [encoder.encode(s)], on a well-formed string. *)
Definition encode (s : string) : list byte := list_byte_of_string s.

(** [await writer.write(p)].  A sink is the writable byte stream of the
    specification: the handle takes the whole buffer and the promise
    resolves, or the promise rejects and nothing is written. *)
Definition write (writer : Deno.Writer) (p : list byte) : Prog unit :=
  fun rt =>
    if accepts rt writer
    then (Returned tt,
          mkRuntime (minimum rt) (heap rt) (utc_now rt) (accepts rt)
                    (written rt ++ [(writer, p)]))
    else (Thrown SinkWriteFailure, rt).

(** The state of the process once the module is loaded:
    [public static minimum: LoggerLevel = LoggerLevel.Trace;], no Logger
    object yet, nothing written. *)
Definition module_loaded (now : string) (acc : Deno.Writer -> bool) : Runtime :=
  mkRuntime LoggerLevel.Trace [] now acc [].

(** ** JavaScript's conversions *)

(** [!l] for an optional integer: [undefined] and [0] are falsy.  ([NaN] is
    falsy too; it is no integer and has no counterpart here.) *)
Definition js_not (l : option LoggerLevel.t) : bool :=
  match l with
  | None => true
  | Some v => Z.eqb v 0
  end.

(** [`${x}`] for a string that may be [undefined]. *)
Definition interpolate (x : option string) : string :=
  match x with
  | Some s => s
  | None => "undefined"
  end.

(** The line feed of the template's [\n]. *)
Definition LF : string := String "010"%char EmptyString.

(** ** The class *)

Section LoggerClass.

(** Calling a color function of [std/fmt/colors.ts] on a string. *)
Variable call : Colors.fn -> string -> string.

(** [public constructor(level = LoggerLevel.Info, prefix = 'None', ostream?)] *)
Definition constructor (level : option LoggerLevel.t) (prefix : option string)
           (ostream : option Deno.Writer) : Prog ref :=
  let level := match level with Some v => v | None => LoggerLevel.Info end in
  let prefix := match prefix with Some s => s | None => "None" end in
  alloc (mkLogger level prefix ostream).

(** [public get prefix()] *)
Definition get_prefix (this : ref) : Prog string :=
  o <- deref this ;; ret (_prefix o).

(** [public get level()] *)
Definition get_level (this : ref) : Prog LoggerLevel.t :=
  o <- deref this ;; ret (_level o).

(** [public set level(l: LoggerLevel)] *)
Definition set_level (this : ref) (l : LoggerLevel.t) : Prog unit :=
  o <- deref this ;;
  store this (mkLogger l (_prefix o) (_ostream o)).

(** Lines 127-129: [if (!l) { l = this._level; }] *)
Definition effective_level (level : LoggerLevel.t) (l : option LoggerLevel.t)
  : LoggerLevel.t :=
  if js_not l then level
  else match l with Some v => v | None => level end.

(** Lines 139-147.  The first [if] assigns the override; the second
    statement is an [if]/[else] of its own and assigns [writer] on both
    of its branches. *)
Definition select_writer (ostream : option Deno.Writer) (l : LoggerLevel.t)
  : Deno.Writer :=
  let writer : option Deno.Writer := None in
  let writer : option Deno.Writer :=
    match ostream with Some o => Some o | None => writer end in
  let writer : Deno.Writer :=
    if Z.eqb l LoggerLevel.Fatal || Z.eqb l LoggerLevel.Error
    then Deno.stderr
    else Deno.stdout in
  writer.

(** The tag [`${LoggerLevel[l]}@${this.prefix}`]. *)
Definition tag (l : LoggerLevel.t) (prefix : string) : string :=
  interpolate (LoggerLevel.name l) ++ "@" ++ prefix.

(** The template literal of line 149.  The text between [)] and [${m}] is
    copied byte for byte from the source file: a space, the four bytes
    C3 82 C2 BB, a space. *)
Definition format_line (now : string) (l : LoggerLevel.t) (prefix m : string)
  : string :=
  now ++ " : (" ++ call (logger_level_color l) (tag l prefix)
      ++ ") Â» " ++ m ++ LF.

(** [public log = async (m: string, l?: LoggerLevel): Promise<void>] *)
Definition log (this : ref) (m : string) (l : option LoggerLevel.t)
  : Prog unit :=
  self <- deref this ;;
  let l := effective_level (_level self) l in
  min <- read_minimum ;;
  if Z.gtb min l then ret tt
  else
    let writer := select_writer (_ostream self) l in
    now <- toUTCString ;;
    prefix <- get_prefix this ;;
    write writer (encode (format_line now l prefix m)).

(** The wrappers: [await this.log(m, LoggerLevel.Trace)], and so on. *)
Definition trace (this : ref) (m : string) : Prog unit :=
  log this m (Some LoggerLevel.Trace).

Definition info (this : ref) (m : string) : Prog unit :=
  log this m (Some LoggerLevel.Info).

Definition warn (this : ref) (m : string) : Prog unit :=
  log this m (Some LoggerLevel.Warn).

Definition error (this : ref) (m : string) : Prog unit :=
  log this m (Some LoggerLevel.Error).

Definition fatal (this : ref) (m : string) : Prog unit :=
  log this m (Some LoggerLevel.Fatal).

End LoggerClass.

(** ** Reading a line back

    The spec's round trip reads an emitted line by its fixed separators.
    Nothing in [src/Logger.ts] parses lines; these definitions follow the
    description: cut at the first opening separator, cut the rest at the
    first closing separator, drop the final line feed, and strip the color
    codes from the tag. *)

(** [starts_with p s]: what follows [p] in [s] when [s] starts with [p]. *)
Fixpoint starts_with (p s : string) : option string :=
  match p with
  | EmptyString => Some s
  | String a p' =>
      match s with
      | EmptyString => None
      | String b s' => if Ascii.eqb a b then starts_with p' s' else None
      end
  end.

(** [occurs sep s]: [sep] stands somewhere in [s]. *)
Fixpoint occurs (sep s : string) : bool :=
  match starts_with sep s with
  | Some _ => true
  | None =>
      match s with
      | EmptyString => false
      | String _ s' => occurs sep s'
      end
  end.

(** [cut sep s]: the text before and after the first [sep] of [s]. *)
Fixpoint cut (sep s : string) : option (string * string) :=
  match starts_with sep s with
  | Some rest => Some (EmptyString, rest)
  | None =>
      match s with
      | EmptyString => None
      | String c s' =>
          match cut sep s' with
          | Some (a, b) => Some (String c a, b)
          | None => None
          end
      end
  end.

(** [chomp s]: [s] without its final line feed. *)
Fixpoint chomp (s : string) : option string :=
  match s with
  | EmptyString => None
  | String c EmptyString => if Ascii.eqb c "010"%char then Some EmptyString else None
  | String c s' =>
      match chomp s' with
      | Some r => Some (String c r)
      | None => None
      end
  end.

(** The separators of the template of line 149, as the source file has them. *)
Definition opening : string := " : (".
Definition closing : string := ") Â» ".

(** The closing separator as the spec prints it. *)
Definition spec_closing : string := ") » ".

(** The timestamp, the tag and the message of a line, [strip] being the
    function that removes color codes. *)
Definition parse_with (op cl : string) (strip : string -> string) (p : list byte)
  : option (string * string * string) :=
  match cut op (string_of_list_byte p) with
  | None => None
  | Some (ts, rest) =>
      match cut cl rest with
      | None => None
      | Some (colored, rest') =>
          match chomp rest' with
          | None => None
          | Some m => Some (ts, strip colored, m)
          end
      end
  end.

Definition parse_line : (string -> string) -> list byte
                        -> option (string * string * string) :=
  parse_with opening closing.

(** All the ways to write [s] as [x ++ q]. *)
Fixpoint splits (s : string) : list (string * string) :=
  (EmptyString, s) ::
  match s with
  | EmptyString => []
  | String c s' => map (fun xq => (String c (fst xq), snd xq)) (splits s')
  end.

(** No proper end of [sep] is also a start of it: two occurrences of [sep]
    cannot overlap. *)
Definition borderless (sep : string) : bool :=
  forallb
    (fun xq =>
       match fst xq, snd xq with
       | EmptyString, _ => true
       | _, EmptyString => true
       | _, q => match starts_with q sep with Some _ => false | None => true end
       end)
    (splits sep).

(** ** A terminal colorizer

    An instance of the color functions for the concrete runs below, with
    colors enabled and for a text that holds no reset code itself: the text
    between the SGR code of the color and the code that resets the
    foreground. *)

Definition ESC : string := String "027"%char EmptyString.

Definition sgr (n : string) : string := ESC ++ "[" ++ n ++ "m".

Definition ansi_code (f : Colors.fn) : string :=
  match f with
  | Colors.green => "32"
  | Colors.brightBlue => "94"
  | Colors.yellow => "33"
  | Colors.red => "31"
  | Colors.brightRed => "91"
  | Colors.white => "37"
  end.

Definition ansi (f : Colors.fn) (s : string) : string :=
  sgr (ansi_code f) ++ s ++ sgr "39".

(** Removing the codes [ansi] put around a text: five bytes at each end. *)
Definition strip_ansi (s : string) : string :=
  substring 5 (String.length s - 10) s.

(** ** Concrete runs *)

Definition noon : string := "Wed, 01 Jan 2020 12:00:00 GMT".

Definition healthy : Deno.Writer -> bool := fun _ => true.

(** The state a program ends in, and how it completes. *)
Definition final {A : Type} (c : Prog A) (rt : Runtime) : Runtime := snd (c rt).

Definition outcome {A : Type} (c : Prog A) (rt : Runtime) : Completion A :=
  fst (c rt).

(** Whether a call added to what was written. *)
Definition produced (before after : Runtime) : bool :=
  Nat.ltb (List.length (written before)) (List.length (written after)).

(** ** The effective level of the specification

    "Effective level = levelOverride if provided, else instance level."
    This definition follows those words; [effective_level] above is what
    lines 127-129 compute.  The two differ when the argument is [Trace]. *)
Definition spec_effective_level (level : LoggerLevel.t)
           (l : option LoggerLevel.t) : LoggerLevel.t :=
  match l with
  | Some v => v
  | None => level
  end.

(** ** Proof steps *)

(** Deciding the tests [l === k] of a number that is no member. *)
Ltac level_tests :=
  repeat match goal with
         | |- context [Z.eqb ?a ?b] => destruct (Z.eqb_spec a b); [lia |]
         end.

(** * Properties *)

(** ** How a call of [log] runs *)

Section LogRuns.

Variable call : Colors.fn -> string -> string.

(** On an allocated object, [log] is the test against [Logger.minimum]
    followed by one write. *)
Lemma log_unfold (rt : Runtime) (this : ref) (self : Logger) (m : string)
      (l : option LoggerLevel.t) :
  nth_error (heap rt) this = Some self ->
  log call this m l rt =
  if Z.gtb (minimum rt) (effective_level (_level self) l)
  then (Returned tt, rt)
  else write (select_writer (_ostream self) (effective_level (_level self) l))
             (encode (format_line call (utc_now rt)
                                  (effective_level (_level self) l)
                                  (_prefix self) m))
             rt.
Proof.
  intros Hthis.
  unfold log, bind, deref, read_minimum.
  rewrite Hthis.
  destruct (Z.gtb (minimum rt) (effective_level (_level self) l)).
  - reflexivity.
  - unfold toUTCString, get_prefix, bind, deref, ret.
    rewrite Hthis. reflexivity.
Qed.

(** Through a reference to no object, [log] throws before anything else. *)
Lemma log_dangling (rt : Runtime) (this : ref) (m : string)
      (l : option LoggerLevel.t) :
  nth_error (heap rt) this = None ->
  log call this m l rt = (Thrown TypeError, rt).
Proof.
  intros Hthis. unfold log, bind, deref. rewrite Hthis. reflexivity.
Qed.

End LogRuns.

(** A write touches neither the static field nor the heap. *)
Lemma write_frame (w : Deno.Writer) (p : list byte) (rt : Runtime) :
  minimum (final (write w p) rt) = minimum rt /\
  heap (final (write w p) rt) = heap rt.
Proof.
  unfold final, write. destruct (accepts rt w); split; reflexivity.
Qed.

(** A write on a handle that accepts it appends one entry. *)
Lemma write_accepted (w : Deno.Writer) (p : list byte) (rt : Runtime) :
  accepts rt w = true ->
  write w p rt =
  (Returned tt,
   mkRuntime (minimum rt) (heap rt) (utc_now rt) (accepts rt)
             (written rt ++ [(w, p)])).
Proof.
  intros Hacc. unfold write. rewrite Hacc. reflexivity.
Qed.

(** The level [log] works with is the argument, unless the argument is
    missing or is [Trace]. *)
Lemma effective_level_given (level v : LoggerLevel.t) :
  v <> LoggerLevel.Trace -> effective_level level (Some v) = v.
Proof.
  intros Hv. unfold effective_level, js_not.
  destruct (Z.eqb_spec v 0) as [E | _]; [contradiction | reflexivity].
Qed.

Lemma effective_level_missing (level : LoggerLevel.t) :
  effective_level level None = level.
Proof. reflexivity. Qed.

Lemma effective_level_Trace (level : LoggerLevel.t) :
  effective_level level (Some LoggerLevel.Trace) = level.
Proof. reflexivity. Qed.

(** The stream is chosen from the level alone. *)
Lemma select_writer_level (ostream : option Deno.Writer) (l : LoggerLevel.t) :
  select_writer ostream l =
  if Z.eqb l LoggerLevel.Fatal || Z.eqb l LoggerLevel.Error
  then Deno.stderr else Deno.stdout.
Proof. reflexivity. Qed.

(** ** Strings *)

Lemma length_append (x y : string) :
  String.length (x ++ y) = String.length x + String.length y.
Proof.
  induction x as [| c x IH]; simpl; [reflexivity | now rewrite IH].
Qed.

Lemma starts_with_append (p b : string) : starts_with p (p ++ b) = Some b.
Proof.
  induction p as [| a p IH]; simpl; [reflexivity |].
  rewrite Ascii.eqb_refl. exact IH.
Qed.

(** A mismatch inside [x] is still one when text follows [x]. *)
Lemma starts_with_long (p x y : string) :
  String.length p <= String.length x ->
  starts_with p x = None ->
  starts_with p (x ++ y) = None.
Proof.
  revert x. induction p as [| a p IH]; intros x Hlen Hno.
  - discriminate Hno.
  - destruct x as [| b x]; simpl in Hlen; [lia |].
    simpl in *. destruct (Ascii.eqb a b); [| reflexivity].
    apply IH; [lia | exact Hno].
Qed.

(** When [p] is longer than [x] and starts [x ++ y], it starts with [x] and
    goes on into [y]. *)
Lemma starts_with_short (p x y r : string) :
  String.length x < String.length p ->
  starts_with p (x ++ y) = Some r ->
  exists q, p = x ++ q /\ starts_with q y = Some r.
Proof.
  revert p. induction x as [| b x IH]; intros p Hlen Hyes.
  - exists p. split; [reflexivity | exact Hyes].
  - destruct p as [| a p]; simpl in Hlen; [lia |].
    simpl in Hyes.
    destruct (Ascii.eqb_spec a b) as [-> | _]; [| discriminate Hyes].
    destruct (IH p) as [q [Hp Hq]]; [lia | exact Hyes |].
    exists q. split; [simpl; now rewrite <- Hp | exact Hq].
Qed.

Lemma splits_In (x q : string) : In (x, q) (splits (x ++ q)).
Proof.
  induction x as [| c x IH].
  - destruct q; simpl; left; reflexivity.
  - simpl. right. apply in_map_iff. exists (x, q). split; [reflexivity | exact IH].
Qed.

Lemma borderless_spec (sep x q : string) :
  borderless sep = true ->
  sep = x ++ q -> x <> EmptyString -> q <> EmptyString ->
  starts_with q sep = None.
Proof.
  unfold borderless. rewrite forallb_forall. intros Hall -> Hx Hq.
  specialize (Hall (x, q) (splits_In x q)).
  destruct x as [| c x]; [contradiction |].
  destruct q as [| d q]; [contradiction |].
  cbv beta iota delta [fst snd] in Hall.
  destruct (starts_with (String d q) (String c x ++ String d q));
    [discriminate Hall | reflexivity].
Qed.

Lemma cut_eq (sep s : string) :
  cut sep s =
  match starts_with sep s with
  | Some rest => Some (EmptyString, rest)
  | None =>
      match s with
      | EmptyString => None
      | String c s' =>
          match cut sep s' with
          | Some (a, b) => Some (String c a, b)
          | None => None
          end
      end
  end.
Proof. destruct s; reflexivity. Qed.

Lemma occurs_eq (sep s : string) :
  occurs sep s =
  match starts_with sep s with
  | Some _ => true
  | None =>
      match s with
      | EmptyString => false
      | String _ s' => occurs sep s'
      end
  end.
Proof. destruct s; reflexivity. Qed.

(** In [a ++ sep ++ b], with [sep] borderless and absent from [a], the first
    [sep] is the one written after [a]. *)
Lemma cut_first (sep a b : string) :
  borderless sep = true ->
  occurs sep a = false ->
  cut sep (a ++ sep ++ b) = Some (a, b).
Proof.
  intros Hsep. induction a as [| c a IH]; intros Hocc.
  - simpl. rewrite cut_eq, starts_with_append. reflexivity.
  - rewrite occurs_eq in Hocc.
    destruct (starts_with sep (String c a)) eqn:Hhere; [discriminate Hocc |].
    rewrite cut_eq.
    assert (Hnot : starts_with sep (String c a ++ sep ++ b) = None).
    { destruct (le_lt_dec (String.length sep) (String.length (String c a)))
        as [Hlong | Hshort].
      - apply starts_with_long; assumption.
      - destruct (starts_with sep (String c a ++ sep ++ b)) as [r |] eqn:Hyes;
          [| reflexivity].
        destruct (starts_with_short _ _ _ _ Hshort Hyes) as [q [Hq Hgo]].
        assert (Hlen : String.length sep
                       = String.length (String c a) + String.length q)
          by (rewrite Hq at 1; apply length_append).
        assert (Hq0 : q <> EmptyString)
          by (intros ->; simpl in Hlen, Hshort; lia).
        assert (Hb : starts_with q sep = None)
          by (apply (borderless_spec sep (String c a) q); try assumption;
              discriminate).
        rewrite (starts_with_long q sep b) in Hgo;
          [discriminate Hgo | lia | exact Hb]. }
    rewrite Hnot. simpl. rewrite (IH Hocc). reflexivity.
Qed.

Lemma chomp_LF (m : string) : chomp (m ++ LF) = Some m.
Proof.
  induction m as [| c m IH]; [reflexivity |].
  change (String c m ++ LF) with (String c (m ++ LF)).
  simpl. rewrite IH.
  destruct (m ++ LF) eqn:E; [| reflexivity].
  destruct m; discriminate E.
Qed.

(** ** Which stream a line goes to *)

(** Whatever [_ostream] holds, a call that is not suppressed is one write on
    a standard stream chosen by the level. *)
Lemma log_ignores_ostream (call : Colors.fn -> string -> string)
      (rt : Runtime) (this : ref) (self : Logger) (m : string)
      (l : option LoggerLevel.t) :
  nth_error (heap rt) this = Some self ->
  (minimum rt <= effective_level (_level self) l)%Z ->
  log call this m l rt =
  write (if Z.eqb (effective_level (_level self) l) LoggerLevel.Fatal
            || Z.eqb (effective_level (_level self) l) LoggerLevel.Error
         then Deno.stderr else Deno.stdout)
        (encode (format_line call (utc_now rt)
                             (effective_level (_level self) l)
                             (_prefix self) m))
        rt.
Proof.
  intros Hthis Hmin.
  rewrite (log_unfold call rt this self m l Hthis).
  destruct (Z.gtb_spec (minimum rt) (effective_level (_level self) l));
    [lia | reflexivity].
Qed.

(** C1, on the code: a Logger constructed with the override [resource 3],
    under the initial minimum.  Its [Info] line is written to the standard
    output and its [Fatal] line to the standard error; in both runs these
    are the only writes, so nothing reaches the override.  The claim asks
    for the line on the override and on no standard stream. *)
Theorem C1_override_sink_not_used (call : Colors.fn -> string -> string) :
  written
    (final (r <- constructor None (Some "disk") (Some (Deno.resource 3)) ;;
            log call r "saved" None)
           (module_loaded noon healthy))
  = [(Deno.stdout,
      encode (noon ++ " : (" ++ call Colors.brightBlue "Info@disk"
                   ++ ") Â» saved" ++ LF))]
  /\
  written
    (final (r <- constructor None (Some "disk") (Some (Deno.resource 3)) ;;
            fatal call r "lost")
           (module_loaded noon healthy))
  = [(Deno.stderr,
      encode (noon ++ " : (" ++ call Colors.brightRed "Fatal@disk"
                   ++ ") Â» lost" ++ LF))].
Proof.
  split; unfold final, fatal; cbn; reflexivity.
Qed.

(** C2, on the code: a Logger of level [Warn] and prefix [net], the minimum
    set to [Info], and the call [log("x", LoggerLevel.Trace)].  The argument
    [Trace] is the number 0, which [!l] takes for a missing argument: the
    level used is the instance's [Warn], and one line tagged [Warn@net] is
    written.  The claim asks for level [Trace] and no output. *)
Theorem C2_Trace_override_replaced (call : Colors.fn -> string -> string) :
  effective_level LoggerLevel.Warn (Some LoggerLevel.Trace) = LoggerLevel.Warn
  /\
  (r <- constructor (Some LoggerLevel.Warn) (Some "net") None ;;
   write_minimum LoggerLevel.Info ;;
   log call r "x" (Some LoggerLevel.Trace))
    (module_loaded noon healthy)
  = (Returned tt,
     mkRuntime LoggerLevel.Info [mkLogger LoggerLevel.Warn "net" None]
               noon healthy
               [(Deno.stdout,
                 encode (noon ++ " : (" ++ call Colors.yellow "Warn@net"
                              ++ ") Â» x" ++ LF))]).
Proof.
  split; [reflexivity |].
  cbn. reflexivity.
Qed.

(** C3, on the code: the same Logger (level [Warn]) under the minimum [Info],
    and the call [trace("ignored")], whose explicit level [Trace] is below
    the minimum.  The call adds a line to what was written.  The claim asks
    for output only when the explicit level reaches the minimum. *)
Theorem C3_emitted_below_minimum (call : Colors.fn -> string -> string) :
  let rt :=
    final (r <- constructor (Some LoggerLevel.Warn) (Some "net") None ;;
           write_minimum LoggerLevel.Info)
          (module_loaded noon healthy) in
  Z.ltb LoggerLevel.Trace (minimum rt) = true /\
  nth_error (heap rt) 0 = Some (mkLogger LoggerLevel.Warn "net" None) /\
  produced rt (final (trace call 0 "ignored") rt) = true.
Proof.
  cbv zeta. split; [reflexivity |]. split; [reflexivity |].
  unfold trace, final at 2.
  rewrite (log_unfold call _ 0 (mkLogger LoggerLevel.Warn "net" None))
    by reflexivity.
  reflexivity.
Qed.

(** What holds in place of C3: on handles that accept the write, a call adds
    a line exactly when the level [log] works with reaches the minimum. *)
Lemma log_produces_iff (call : Colors.fn -> string -> string)
      (rt : Runtime) (this : ref) (self : Logger) (m : string)
      (l : option LoggerLevel.t) :
  nth_error (heap rt) this = Some self ->
  (forall w, accepts rt w = true) ->
  produced rt (final (log call this m l) rt) = true
  <-> (minimum rt <= effective_level (_level self) l)%Z.
Proof.
  intros Hthis Hacc. unfold final.
  rewrite (log_unfold call rt this self m l Hthis).
  destruct (Z.gtb_spec (minimum rt) (effective_level (_level self) l))
    as [Hgt | Hle].
  - unfold produced. simpl. rewrite Nat.ltb_irrefl. split; [discriminate | lia].
  - rewrite write_accepted by apply Hacc.
    unfold produced. simpl. rewrite length_app. simpl.
    split; [lia | intros _; apply Nat.ltb_lt; lia].
Qed.

(** Lines 141-147, in terms of the level after lines 127-129: on an instance
    with no sink override, a call that is not suppressed is the write of its
    line on the standard error when that level is [Error] or [Fatal], and on
    the standard output when it is [Trace], [Info] or [Warn]. *)
Theorem sink_by_resolved_level (call : Colors.fn -> string -> string)
        (rt : Runtime) (this : ref) (self : Logger) (m : string)
        (l : option LoggerLevel.t) :
  nth_error (heap rt) this = Some self ->
  _ostream self = None ->
  (minimum rt <= effective_level (_level self) l)%Z ->
  let lv := effective_level (_level self) l in
  let line := encode (format_line call (utc_now rt) lv (_prefix self) m) in
  (lv = LoggerLevel.Error \/ lv = LoggerLevel.Fatal ->
   log call this m l rt = write Deno.stderr line rt) /\
  (lv = LoggerLevel.Trace \/ lv = LoggerLevel.Info \/ lv = LoggerLevel.Warn ->
   log call this m l rt = write Deno.stdout line rt).
Proof.
  intros Hthis Hnone Hmin lv line.
  rewrite (log_ignores_ostream call rt this self m l Hthis Hmin).
  fold lv. fold line.
  split.
  - intros [E | E]; rewrite E; reflexivity.
  - intros [E | [E | E]]; rewrite E; reflexivity.
Qed.

Lemma sink_by_resolved_level_witness :
  let rt := mkRuntime LoggerLevel.Trace
                      [mkLogger LoggerLevel.Error "net" None]
                      noon healthy [] in
  written (final (log ansi 0 "link down" None) rt)
  = [(Deno.stderr,
      encode (format_line ansi noon LoggerLevel.Error "net" "link down"))]
  /\
  written (final (log ansi 0 "link up" (Some LoggerLevel.Info)) rt)
  = [(Deno.stdout,
      encode (format_line ansi noon LoggerLevel.Info "net" "link up"))].
Proof.
  cbv zeta.
  set (rt := mkRuntime LoggerLevel.Trace
                       [mkLogger LoggerLevel.Error "net" None]
                       noon healthy []).
  split.
  - unfold final.
    rewrite (proj1 (sink_by_resolved_level ansi rt 0
                      (mkLogger LoggerLevel.Error "net" None) "link down" None
                      eq_refl eq_refl ltac:(vm_compute; discriminate))
                   (or_introl eq_refl)).
    reflexivity.
  - unfold final.
    rewrite (proj2 (sink_by_resolved_level ansi rt 0
                      (mkLogger LoggerLevel.Error "net" None) "link up"
                      (Some LoggerLevel.Info)
                      eq_refl eq_refl ltac:(vm_compute; discriminate))
                   (or_intror (or_introl eq_refl))).
    reflexivity.
Defined.

(** ** Suppression *)


(** ** Colors *)

Lemma unrecognized_color (l : LoggerLevel.t) :
  ~ LoggerLevel.recognized l -> logger_level_color l = Colors.white.
Proof.
  unfold LoggerLevel.recognized, logger_level_color,
    LoggerLevel.Trace, LoggerLevel.Info, LoggerLevel.Warn,
    LoggerLevel.Error, LoggerLevel.Fatal.
  intros Hno. level_tests. reflexivity.
Qed.

Lemma unrecognized_name (l : LoggerLevel.t) :
  ~ LoggerLevel.recognized l -> LoggerLevel.name l = None.
Proof.
  unfold LoggerLevel.recognized, LoggerLevel.name.
  intros Hno. level_tests. reflexivity.
Qed.

Lemma unrecognized_writer (ostream : option Deno.Writer) (l : LoggerLevel.t) :
  ~ LoggerLevel.recognized l -> select_writer ostream l = Deno.stdout.
Proof.
  unfold LoggerLevel.recognized, select_writer,
    LoggerLevel.Error, LoggerLevel.Fatal.
  intros Hno. level_tests. reflexivity.
Qed.

(** C7: [logger_level_color] gives a color for every number: green for
    [Trace], bright blue for [Info], yellow for [Warn], red for [Error],
    bright red for [Fatal], and white for any number that is no member of
    the enumeration.  A call whose level is no member and is not suppressed
    formats its line (white, with the name [undefined]) and is the write of
    that line; it returns normally when the stream accepts the write. *)
Theorem C7_level_color_total_with_fallback :
  (forall l, exists f, logger_level_color l = f) /\
  logger_level_color LoggerLevel.Trace = Colors.green /\
  logger_level_color LoggerLevel.Info = Colors.brightBlue /\
  logger_level_color LoggerLevel.Warn = Colors.yellow /\
  logger_level_color LoggerLevel.Error = Colors.red /\
  logger_level_color LoggerLevel.Fatal = Colors.brightRed /\
  (forall l, ~ LoggerLevel.recognized l -> logger_level_color l = Colors.white) /\
  (forall (call : Colors.fn -> string -> string) (rt : Runtime) (this : ref)
          (self : Logger) (m : string) (l : option LoggerLevel.t),
      nth_error (heap rt) this = Some self ->
      ~ LoggerLevel.recognized (effective_level (_level self) l) ->
      (minimum rt <= effective_level (_level self) l)%Z ->
      log call this m l rt
      = write Deno.stdout
              (encode (utc_now rt ++ " : ("
                         ++ call Colors.white ("undefined@" ++ _prefix self)
                         ++ ") Â» " ++ m ++ LF))
              rt
      /\ (accepts rt Deno.stdout = true ->
          outcome (log call this m l) rt = Returned tt)).
Proof.
  split; [intros l; eexists; reflexivity |].
  do 5 (split; [reflexivity |]).
  split; [exact unrecognized_color |].
  intros call rt this self m l Hthis Hno Hmin.
  assert (Hrun : log call this m l rt
                 = write Deno.stdout
                     (encode (utc_now rt ++ " : ("
                                ++ call Colors.white ("undefined@" ++ _prefix self)
                                ++ ") Â» " ++ m ++ LF))
                     rt).
  { rewrite (log_unfold call rt this self m l Hthis).
    destruct (Z.gtb_spec (minimum rt) (effective_level (_level self) l));
      [lia |].
    rewrite (unrecognized_writer _ _ Hno).
    unfold format_line, tag.
    rewrite (unrecognized_color _ Hno), (unrecognized_name _ Hno).
    reflexivity. }
  split; [exact Hrun |].
  intros Hacc. unfold outcome. rewrite Hrun, write_accepted by exact Hacc.
  reflexivity.
Qed.

Lemma C7_level_color_total_with_fallback_witness :
  let rt := mkRuntime LoggerLevel.Trace
                      [mkLogger LoggerLevel.Info "None" None]
                      noon healthy [] in
  log ansi 0 "odd" (Some 7%Z) rt
  = (Returned tt,
     mkRuntime LoggerLevel.Trace [mkLogger LoggerLevel.Info "None" None]
               noon healthy
               [(Deno.stdout,
                 encode (noon ++ " : (" ++ ansi Colors.white "undefined@None"
                              ++ ") Â» odd" ++ LF))]).
Proof.
  cbv zeta.
  destruct C7_level_color_total_with_fallback
    as (_ & _ & _ & _ & _ & _ & _ & Hlog).
  destruct (Hlog ansi
                 (mkRuntime LoggerLevel.Trace
                            [mkLogger LoggerLevel.Info "None" None]
                            noon healthy [])
                 0 (mkLogger LoggerLevel.Info "None" None) "odd" (Some 7%Z))
    as [Hrun _].
  - reflexivity.
  - vm_compute. intros [_ H]. apply H. reflexivity.
  - vm_compute. discriminate.
  - rewrite Hrun. reflexivity.
Defined.

(** ** Construction and the static field *)

Lemma nth_error_snoc (h : list Logger) (o : Logger) :
  nth_error (h ++ [o]) (List.length h) = Some o.
Proof.
  induction h as [| x h IH]; [reflexivity | exact IH].
Qed.

(** C8: [new Logger()] allocates an object of level [Info], prefix [None]
    and no sink override, which its getters report; apart from the new
    object the state is the one before (the minimum, the other objects, the
    clock, the handles and what was written).  Once the module is loaded
    [Logger.minimum] is [Trace], which no member of the enumeration is
    below. *)
Theorem C8_default_construction (rt : Runtime) :
  constructor None None None rt
  = (Returned (List.length (heap rt)),
     mkRuntime (minimum rt)
               (heap rt ++ [mkLogger LoggerLevel.Info "None" None])
               (utc_now rt) (accepts rt) (written rt))
  /\
  (let r := List.length (heap rt) in
   let rt' := final (constructor None None None) rt in
   nth_error (heap rt') r = Some (mkLogger LoggerLevel.Info "None" None) /\
   get_level r rt' = (Returned LoggerLevel.Info, rt') /\
   get_prefix r rt' = (Returned "None", rt'))
  /\
  (forall now acc, minimum (module_loaded now acc) = LoggerLevel.Trace)
  /\
  forallb (Z.leb LoggerLevel.Trace)
          [LoggerLevel.Trace; LoggerLevel.Info; LoggerLevel.Warn;
           LoggerLevel.Error; LoggerLevel.Fatal] = true.
Proof.
  split; [reflexivity |].
  split.
  - cbv zeta. unfold final, constructor, alloc. cbn [snd heap].
    assert (Hnew := nth_error_snoc (heap rt)
                      (mkLogger LoggerLevel.Info "None" None)).
    split; [exact Hnew |].
    unfold get_level, get_prefix, bind, deref, ret. cbn [heap].
    rewrite Hnew. split; reflexivity.
  - split; [intros now acc; reflexivity | reflexivity].
Qed.

(** ** What the methods leave unchanged *)

Lemma log_frame (call : Colors.fn -> string -> string) (rt : Runtime)
      (this : ref) (m : string) (l : option LoggerLevel.t) :
  minimum (final (log call this m l) rt) = minimum rt /\
  heap (final (log call this m l) rt) = heap rt.
Proof.
  destruct (nth_error (heap rt) this) as [self |] eqn:Hthis.
  - unfold final. rewrite (log_unfold call rt this self m l Hthis).
    destruct (Z.gtb (minimum rt) (effective_level (_level self) l)).
    + split; reflexivity.
    + apply write_frame.
  - unfold final. rewrite (log_dangling call rt this m l Hthis).
    split; reflexivity.
Qed.

Lemma update_same (h : list Logger) (i : nat) (o old : Logger) :
  nth_error h i = Some old -> nth_error (update h i o) i = Some o.
Proof.
  revert i. induction h as [| x h IH]; intros [| i] Hi; simpl in *;
    try discriminate; [reflexivity | now apply IH].
Qed.

Lemma update_other (h : list Logger) (i j : nat) (o : Logger) :
  j <> i -> nth_error (update h i o) j = nth_error h j.
Proof.
  revert i j. induction h as [| x h IH]; intros [| i] [| j] Hne; simpl;
    try reflexivity; [contradiction | apply IH; lia].
Qed.

(** C9: [log] and the wrappers [trace], [info], [warn], [error] and [fatal]
    leave every Logger object and [Logger.minimum] as they were.  The level
    setter returns normally; afterwards the object has the new level with
    the prefix and the sink override it had, every other object is as it
    was, and so are [Logger.minimum] and what was written. *)
Theorem C9_logging_and_setter_frame (call : Colors.fn -> string -> string)
        (rt : Runtime) (this : ref) (m : string) :
  (forall l,
      minimum (final (log call this m l) rt) = minimum rt /\
      heap (final (log call this m l) rt) = heap rt) /\
  (minimum (final (trace call this m) rt) = minimum rt /\
   heap (final (trace call this m) rt) = heap rt) /\
  (minimum (final (info call this m) rt) = minimum rt /\
   heap (final (info call this m) rt) = heap rt) /\
  (minimum (final (warn call this m) rt) = minimum rt /\
   heap (final (warn call this m) rt) = heap rt) /\
  (minimum (final (error call this m) rt) = minimum rt /\
   heap (final (error call this m) rt) = heap rt) /\
  (minimum (final (fatal call this m) rt) = minimum rt /\
   heap (final (fatal call this m) rt) = heap rt) /\
  (forall (self : Logger) (lv : LoggerLevel.t),
      nth_error (heap rt) this = Some self ->
      outcome (set_level this lv) rt = Returned tt /\
      nth_error (heap (final (set_level this lv) rt)) this
      = Some (mkLogger lv (_prefix self) (_ostream self)) /\
      (forall other, other <> this ->
                     nth_error (heap (final (set_level this lv) rt)) other
                     = nth_error (heap rt) other) /\
      minimum (final (set_level this lv) rt) = minimum rt /\
      written (final (set_level this lv) rt) = written rt).
Proof.
  split; [intros l; apply log_frame |].
  do 5 (split; [apply log_frame |]).
  intros self lv Hthis.
  unfold outcome, final, set_level, bind, deref, store.
  rewrite Hthis. cbn [fst snd heap minimum written].
  split; [reflexivity |].
  split; [exact (update_same _ _ _ _ Hthis) |].
  split; [intros other Hne; apply update_other; exact Hne |].
  split; reflexivity.
Qed.

Lemma C9_logging_and_setter_frame_witness :
  let rt := mkRuntime LoggerLevel.Trace
                      [mkLogger LoggerLevel.Info "a" None;
                       mkLogger LoggerLevel.Warn "b" (Some (Deno.resource 3))]
                      noon healthy [] in
  heap (final (set_level 1 LoggerLevel.Fatal) rt)
  = [mkLogger LoggerLevel.Info "a" None;
     mkLogger LoggerLevel.Fatal "b" (Some (Deno.resource 3))]
  /\ nth_error (heap (final (set_level 1 LoggerLevel.Fatal) rt)) 1
     = Some (mkLogger LoggerLevel.Fatal "b" (Some (Deno.resource 3)))
  /\ minimum (final (set_level 1 LoggerLevel.Fatal) rt) = LoggerLevel.Trace.
Proof.
  cbv zeta.
  split; [reflexivity |].
  destruct (C9_logging_and_setter_frame ansi
              (mkRuntime LoggerLevel.Trace
                         [mkLogger LoggerLevel.Info "a" None;
                          mkLogger LoggerLevel.Warn "b" (Some (Deno.resource 3))]
                         noon healthy [])
              1 "m")
    as (_ & _ & _ & _ & _ & _ & Hset).
  destruct (Hset (mkLogger LoggerLevel.Warn "b" (Some (Deno.resource 3)))
                 LoggerLevel.Fatal eq_refl)
    as (_ & Hfield & _ & Hmin & _).
  split; [exact Hfield | exact Hmin].
Defined.

(** ** The decision to emit *)

(** Lines 133-135, in terms of the level after lines 127-129: two calls made
    under the same [Logger.minimum] with the same such level, whatever their
    messages, prefixes and sink overrides, are both suppressed (each returns
    with its state unchanged) or are both the write of their line; on
    handles that accept the writes, both add to what was written or neither
    does. *)
Theorem decision_by_resolved_level
        (call : Colors.fn -> string -> string)
        (rt1 rt2 : Runtime) (this1 this2 : ref) (self1 self2 : Logger)
        (m1 m2 : string) (l1 l2 : option LoggerLevel.t) :
  nth_error (heap rt1) this1 = Some self1 ->
  nth_error (heap rt2) this2 = Some self2 ->
  minimum rt1 = minimum rt2 ->
  effective_level (_level self1) l1 = effective_level (_level self2) l2 ->
  let lv := effective_level (_level self1) l1 in
  ((log call this1 m1 l1 rt1 = (Returned tt, rt1) /\
    log call this2 m2 l2 rt2 = (Returned tt, rt2))
   \/
   (log call this1 m1 l1 rt1
    = write (select_writer (_ostream self1) lv)
            (encode (format_line call (utc_now rt1) lv (_prefix self1) m1))
            rt1 /\
    log call this2 m2 l2 rt2
    = write (select_writer (_ostream self2) lv)
            (encode (format_line call (utc_now rt2) lv (_prefix self2) m2))
            rt2))
  /\
  ((forall w, accepts rt1 w = true) -> (forall w, accepts rt2 w = true) ->
   produced rt1 (final (log call this1 m1 l1) rt1)
   = produced rt2 (final (log call this2 m2 l2) rt2)).
Proof.
  intros H1 H2 Hmin Hlv lv.
  split.
  - rewrite (log_unfold call rt1 this1 self1 m1 l1 H1).
    rewrite (log_unfold call rt2 this2 self2 m2 l2 H2).
    rewrite <- Hlv, <- Hmin. fold lv.
    destruct (Z.gtb (minimum rt1) lv); [left | right]; split; reflexivity.
  - intros Hacc1 Hacc2.
    destruct (produced rt1 (final (log call this1 m1 l1) rt1)) eqn:P1;
      destruct (produced rt2 (final (log call this2 m2 l2) rt2)) eqn:P2;
      try reflexivity.
    + apply (log_produces_iff call rt1 this1 self1 m1 l1 H1 Hacc1) in P1.
      rewrite Hlv, Hmin in P1.
      apply (log_produces_iff call rt2 this2 self2 m2 l2 H2 Hacc2) in P1.
      congruence.
    + apply (log_produces_iff call rt2 this2 self2 m2 l2 H2 Hacc2) in P2.
      rewrite <- Hlv, <- Hmin in P2.
      apply (log_produces_iff call rt1 this1 self1 m1 l1 H1 Hacc1) in P2.
      congruence.
Qed.

Lemma decision_by_resolved_level_witness :
  let rt1 := mkRuntime LoggerLevel.Warn
                       [mkLogger LoggerLevel.Info "net" None]
                       noon healthy [] in
  let rt2 := mkRuntime LoggerLevel.Warn
                       [mkLogger LoggerLevel.Error "disk"
                                 (Some (Deno.resource 3))]
                       noon healthy [] in
  produced rt1 (final (log ansi 0 "one" None) rt1)
  = produced rt2 (final (log ansi 0 "two" (Some LoggerLevel.Info)) rt2).
Proof.
  cbv zeta.
  apply (decision_by_resolved_level ansi
           (mkRuntime LoggerLevel.Warn
                      [mkLogger LoggerLevel.Info "net" None] noon healthy [])
           (mkRuntime LoggerLevel.Warn
                      [mkLogger LoggerLevel.Error "disk"
                                (Some (Deno.resource 3))] noon healthy [])
           0 0
           (mkLogger LoggerLevel.Info "net" None)
           (mkLogger LoggerLevel.Error "disk" (Some (Deno.resource 3)))
           "one" "two" None (Some LoggerLevel.Info)
           eq_refl eq_refl eq_refl eq_refl);
    intros w; reflexivity.
Defined.

(** ** The shape of a line *)

Lemma borderless_opening : borderless opening = true.
Proof. reflexivity. Qed.

Lemma borderless_closing : borderless closing = true.
Proof. reflexivity. Qed.

(** Reading back a formatted line whose timestamp holds no opening separator
    and whose colorized tag holds no closing separator. *)
Lemma parse_format_line (call : Colors.fn -> string -> string)
      (strip : string -> string) (now : string) (l : LoggerLevel.t)
      (prefix m : string) :
  occurs opening now = false ->
  occurs closing (call (logger_level_color l) (tag l prefix)) = false ->
  parse_line strip (encode (format_line call now l prefix m))
  = Some (now, strip (call (logger_level_color l) (tag l prefix)), m).
Proof.
  intros Hnow Htag.
  unfold parse_line, parse_with, encode.
  rewrite string_of_list_byte_of_string.
  unfold format_line.
  change (now ++ " : (" ++ call (logger_level_color l) (tag l prefix)
              ++ ") Â» " ++ m ++ LF)
    with (now ++ opening
              ++ (call (logger_level_color l) (tag l prefix)
                       ++ closing ++ (m ++ LF))).
  rewrite (cut_first opening now _ borderless_opening Hnow).
  rewrite (cut_first closing _ (m ++ LF) borderless_closing Htag).
  rewrite chomp_LF. reflexivity.
Qed.


(** The format escapes nothing: a Logger whose prefix holds the closing
    separator the code writes.  Its line is emitted; read back with that
    separator, the tag ends inside the prefix and the message starts there,
    whatever function strips the color codes. *)
Lemma separator_in_prefix_breaks_reading :
  let rt := mkRuntime LoggerLevel.Trace
                      [mkLogger LoggerLevel.Info ") Â» x" None]
                      noon healthy [] in
  let line := encode (format_line ansi noon LoggerLevel.Info ") Â» x" "m") in
  written (final (log ansi 0 "m" None) rt) = [(Deno.stdout, line)]
  /\ tag LoggerLevel.Info ") Â» x" = "Info@) Â» x"
  /\ (forall strip,
         parse_line strip line
         = Some (noon, strip (sgr "94" ++ "Info@"),
                 "x" ++ sgr "39" ++ ") Â» m"))
  /\ (forall strip,
         parse_line strip line <> Some (noon, "Info@) Â» x", "m"))
  /\ (forall strip, parse_with opening spec_closing strip line = None).
Proof.
  cbv zeta.
  split; [reflexivity |].
  split; [reflexivity |].
  assert (Hparse : forall strip,
             parse_line strip
               (encode (format_line ansi noon LoggerLevel.Info ") Â» x" "m"))
             = Some (noon, strip (sgr "94" ++ "Info@"),
                     "x" ++ sgr "39" ++ ") Â» m"))
    by (intros strip; reflexivity).
  split; [exact Hparse |].
  split.
  - intros strip Heq. rewrite Hparse in Heq.
    inversion Heq.
  - intros strip. reflexivity.
Qed.

(** * Further properties of the class *)

(** ** Accessors *)

Lemma update_update (h : list Logger) (i : nat) (a b : Logger) :
  update (update h i a) i b = update h i b.
Proof.
  revert i. induction h as [| x h IH]; intros [| i]; simpl;
    try reflexivity.
  now rewrite IH.
Qed.

Lemma update_length (h : list Logger) (i : nat) (o : Logger) :
  List.length (update h i o) = List.length h.
Proof.
  revert i. induction h as [| x h IH]; intros [| i]; simpl;
    try reflexivity.
  now rewrite IH.
Qed.

(** Lines 65-75: after [lg.level = lv], the getter [lg.level] reads [lv] and
    the getter [lg.prefix] reads the prefix given at construction; of two
    assignments the later one stays. *)
Theorem setter_then_getters (rt : Runtime) (this : ref) (self : Logger)
        (lv lv' : LoggerLevel.t) :
  nth_error (heap rt) this = Some self ->
  (set_level this lv ;; get_level this) rt
  = (Returned lv, final (set_level this lv) rt)
  /\ (set_level this lv ;; get_prefix this) rt
     = (Returned (_prefix self), final (set_level this lv) rt)
  /\ final (set_level this lv ;; set_level this lv') rt
     = final (set_level this lv') rt.
Proof.
  intros Hthis.
  assert (Hnew : nth_error (update (heap rt) this
                                   (mkLogger lv (_prefix self) (_ostream self)))
                           this
                 = Some (mkLogger lv (_prefix self) (_ostream self)))
    by exact (update_same _ _ _ _ Hthis).
  unfold final, set_level, get_level, get_prefix, bind, deref, store, ret.
  rewrite Hthis. cbn [fst snd heap minimum utc_now accepts written].
  rewrite Hnew. cbn [fst snd heap minimum utc_now accepts written
                     _level _prefix _ostream].
  rewrite update_update.
  repeat split.
Qed.

Lemma setter_then_getters_witness :
  let rt := mkRuntime LoggerLevel.Trace
                      [mkLogger LoggerLevel.Info "a" None;
                       mkLogger LoggerLevel.Warn "b" None]
                      noon healthy [] in
  outcome (set_level 1 LoggerLevel.Error ;; get_level 1) rt
  = Returned LoggerLevel.Error
  /\ outcome (set_level 1 LoggerLevel.Error ;; get_prefix 1) rt
     = Returned "b".
Proof.
  cbv zeta.
  destruct (setter_then_getters
              (mkRuntime LoggerLevel.Trace
                         [mkLogger LoggerLevel.Info "a" None;
                          mkLogger LoggerLevel.Warn "b" None]
                         noon healthy [])
              1 (mkLogger LoggerLevel.Warn "b" None)
              LoggerLevel.Error LoggerLevel.Fatal eq_refl)
    as (Hlevel & Hprefix & _).
  unfold outcome. rewrite Hlevel, Hprefix. split; reflexivity.
Defined.

Lemma nth_error_fresh (h : list Logger) :
  nth_error h (List.length h) = None.
Proof.
  induction h as [| x h IH]; [reflexivity | exact IH].
Qed.

(** Lines 55-71: [new Logger(level, prefix, ostream)] returns a reference
    that designated no object before; through it the getters read the level
    and the prefix that were passed, and the object holds the sink that was
    passed.  The objects that existed are the first objects of the new heap,
    unchanged, and nothing else of the state changes. *)
Theorem construction_stores_arguments (rt : Runtime) (level : LoggerLevel.t)
        (prefix : string) (ostream : option Deno.Writer) :
  let r := List.length (heap rt) in
  let rt' := final (constructor (Some level) (Some prefix) ostream) rt in
  outcome (constructor (Some level) (Some prefix) ostream) rt = Returned r
  /\ nth_error (heap rt) r = None
  /\ get_level r rt' = (Returned level, rt')
  /\ get_prefix r rt' = (Returned prefix, rt')
  /\ nth_error (heap rt') r = Some (mkLogger level prefix ostream)
  /\ firstn (List.length (heap rt)) (heap rt') = heap rt
  /\ List.length (heap rt') = S (List.length (heap rt))
  /\ minimum rt' = minimum rt
  /\ written rt' = written rt.
Proof.
  cbv zeta. unfold outcome, final, constructor, alloc.
  cbn [fst snd heap minimum written].
  assert (Hnew := nth_error_snoc (heap rt) (mkLogger level prefix ostream)).
  split; [reflexivity |].
  split; [apply nth_error_fresh |].
  unfold get_level, get_prefix, bind, deref, ret. cbn [heap].
  rewrite Hnew.
  split; [reflexivity |].
  split; [reflexivity |].
  split; [reflexivity |].
  split.
  - rewrite firstn_app, Nat.sub_diag, firstn_all. cbn [firstn].
    apply app_nil_r.
  - split; [| split; reflexivity].
    rewrite length_app. cbn [List.length]. lia.
Qed.

(** ** Failure of the sink *)

(** A write is never without effect: it appends, or it throws. *)
Lemma write_not_noop (w : Deno.Writer) (p : list byte) (rt : Runtime) :
  write w p rt = (Returned tt, rt) -> False.
Proof.
  unfold write. destruct (accepts rt w); intros Heq; [| discriminate Heq].
  assert (Hlen : List.length (written rt ++ [(w, p)])
                 = List.length (written rt))
    by (injection Heq as Heq; destruct rt as [mn hp nw ac wr];
        cbn [minimum heap utc_now accepts written] in *;
        injection Heq as Hwr; now rewrite Hwr).
  rewrite length_app in Hlen. cbn [List.length] in Hlen. lia.
Qed.

(** Line 149: when the chosen stream rejects the write, a call that is not
    suppressed throws the stream's failure; nothing is written and nothing
    else of the state changes (the call neither retries nor falls back to
    another stream). *)
Theorem rejected_write_propagates (call : Colors.fn -> string -> string)
        (rt : Runtime) (this : ref) (self : Logger) (m : string)
        (l : option LoggerLevel.t) :
  nth_error (heap rt) this = Some self ->
  (minimum rt <= effective_level (_level self) l)%Z ->
  accepts rt (select_writer (_ostream self)
                            (effective_level (_level self) l)) = false ->
  log call this m l rt = (Thrown SinkWriteFailure, rt).
Proof.
  intros Hthis Hmin Hrej.
  rewrite (log_unfold call rt this self m l Hthis).
  destruct (Z.gtb_spec (minimum rt) (effective_level (_level self) l));
    [lia |].
  unfold write. rewrite Hrej. reflexivity.
Qed.

Lemma rejected_write_propagates_witness :
  let rt := mkRuntime LoggerLevel.Trace
                      [mkLogger LoggerLevel.Error "net" None]
                      noon
                      (fun w => match w with
                                | Deno.stderr => false
                                | _ => true
                                end)
                      [] in
  log ansi 0 "link down" None rt = (Thrown SinkWriteFailure, rt).
Proof.
  cbv zeta.
  apply (rejected_write_propagates ansi _ 0
           (mkLogger LoggerLevel.Error "net" None) "link down" None).
  - reflexivity.
  - vm_compute. discriminate.
  - reflexivity.
Defined.

(** Lines 126-150: whatever the call and however it ends, [log] keeps every
    entry written before it, in order, and adds at most one; it changes
    neither the clock reading nor the handles. *)
Theorem log_appends_at_most_one (call : Colors.fn -> string -> string)
        (rt : Runtime) (this : ref) (m : string) (l : option LoggerLevel.t) :
  exists added,
    written (final (log call this m l) rt) = (written rt ++ added)%list
    /\ List.length added <= 1
    /\ (added = [] \/ outcome (log call this m l) rt = Returned tt)
    /\ utc_now (final (log call this m l) rt) = utc_now rt
    /\ accepts (final (log call this m l) rt) = accepts rt.
Proof.
  unfold final, outcome.
  destruct (nth_error (heap rt) this) as [self |] eqn:Hthis.
  - rewrite (log_unfold call rt this self m l Hthis).
    destruct (Z.gtb (minimum rt) (effective_level (_level self) l)).
    + exists []. cbn [fst snd]. rewrite app_nil_r.
      repeat split; auto.
    + unfold write.
      destruct (accepts rt (select_writer (_ostream self)
                              (effective_level (_level self) l))).
      * eexists [_]. cbn [fst snd written utc_now List.length].
        repeat split; auto.
      * exists []. cbn [fst snd]. rewrite app_nil_r.
        repeat split; auto.
  - rewrite (log_dangling call rt this m l Hthis).
    exists []. cbn [fst snd]. rewrite app_nil_r.
    repeat split; auto.
Qed.

(** ** The threshold *)

(** Lines 133-135: on an allocated Logger, a call returns with the state
    untouched exactly when its effective level ([l] after lines 127-129) is
    below [Logger.minimum]; any other call shows, by a line or by the
    failure of the stream. *)
Theorem log_silent_iff_below_minimum (call : Colors.fn -> string -> string)
        (rt : Runtime) (this : ref) (self : Logger) (m : string)
        (l : option LoggerLevel.t) :
  nth_error (heap rt) this = Some self ->
  log call this m l rt = (Returned tt, rt)
  <-> (effective_level (_level self) l < minimum rt)%Z.
Proof.
  intros Hthis.
  rewrite (log_unfold call rt this self m l Hthis).
  destruct (Z.gtb_spec (minimum rt) (effective_level (_level self) l))
    as [Hgt | Hle].
  - split; [intros _; lia | reflexivity].
  - split; [intros Hnoop | lia].
    destruct (write_not_noop _ _ _ Hnoop).
Qed.

Lemma log_silent_iff_below_minimum_witness :
  let rt := mkRuntime LoggerLevel.Error
                      [mkLogger LoggerLevel.Warn "net" None]
                      noon healthy [] in
  log ansi 0 "link flapping" None rt = (Returned tt, rt).
Proof.
  cbv zeta.
  apply (log_silent_iff_below_minimum ansi
           (mkRuntime LoggerLevel.Error
                      [mkLogger LoggerLevel.Warn "net" None]
                      noon healthy [])
           0 (mkLogger LoggerLevel.Warn "net" None) "link flapping" None
           eq_refl).
  vm_compute. reflexivity.
Defined.

(** Lines 43 and 133-135: [Logger.minimum = a] acts on the calls that follow
    it, for every Logger.  A call that is silent after [Logger.minimum = a]
    is silent after [Logger.minimum = b] for every [b] at or above [a], and
    a call that is not silent after [Logger.minimum = b] is not silent after
    [Logger.minimum = a]. *)
Theorem raising_minimum_only_silences
        (call : Colors.fn -> string -> string)
        (rt : Runtime) (this : ref) (self : Logger) (m : string)
        (l : option LoggerLevel.t) (a b : LoggerLevel.t) :
  nth_error (heap rt) this = Some self ->
  (a <= b)%Z ->
  let rta := final (write_minimum a) rt in
  let rtb := final (write_minimum b) rt in
  (log call this m l rta = (Returned tt, rta) ->
   log call this m l rtb = (Returned tt, rtb))
  /\
  (log call this m l rtb
   = write (select_writer (_ostream self) (effective_level (_level self) l))
           (encode (format_line call (utc_now rt)
                                (effective_level (_level self) l)
                                (_prefix self) m))
           rtb ->
   log call this m l rta
   = write (select_writer (_ostream self) (effective_level (_level self) l))
           (encode (format_line call (utc_now rt)
                                (effective_level (_level self) l)
                                (_prefix self) m))
           rta).
Proof.
  intros Hthis Hab rta rtb.
  assert (Ha : nth_error (heap rta) this = Some self) by exact Hthis.
  assert (Hb : nth_error (heap rtb) this = Some self) by exact Hthis.
  rewrite (log_unfold call rta this self m l Ha).
  rewrite (log_unfold call rtb this self m l Hb).
  change (minimum rta) with a. change (minimum rtb) with b.
  change (utc_now rta) with (utc_now rt).
  change (utc_now rtb) with (utc_now rt).
  destruct (Z.gtb_spec a (effective_level (_level self) l)) as [Hga | Hla];
    destruct (Z.gtb_spec b (effective_level (_level self) l)) as [Hgb | Hlb];
    try lia.
  - split; [reflexivity |].
    intros Hnoop. symmetry in Hnoop. destruct (write_not_noop _ _ _ Hnoop).
  - split; [reflexivity |].
    intros Hnoop. symmetry in Hnoop. destruct (write_not_noop _ _ _ Hnoop).
  - split; [| reflexivity].
    intros Hnoop. destruct (write_not_noop _ _ _ Hnoop).
Qed.

Lemma raising_minimum_only_silences_witness :
  let rt := mkRuntime LoggerLevel.Trace
                      [mkLogger LoggerLevel.Info "net" None]
                      noon healthy [] in
  log ansi 0 "up" None (final (write_minimum LoggerLevel.Fatal) rt)
  = (Returned tt, final (write_minimum LoggerLevel.Fatal) rt).
Proof.
  cbv zeta.
  apply (proj1 (raising_minimum_only_silences ansi
                  (mkRuntime LoggerLevel.Trace
                             [mkLogger LoggerLevel.Info "net" None]
                             noon healthy [])
                  0 (mkLogger LoggerLevel.Info "net" None) "up" None
                  LoggerLevel.Warn LoggerLevel.Fatal eq_refl
                  ltac:(vm_compute; discriminate))).
  reflexivity.
Defined.

(** The level a call works with is a member of the enumeration when the
    instance's level is one and the argument is missing or is one. *)
Lemma effective_level_recognized (level : LoggerLevel.t)
      (l : option LoggerLevel.t) :
  LoggerLevel.recognized level ->
  match l with None => True | Some v => LoggerLevel.recognized v end ->
  LoggerLevel.recognized (effective_level level l).
Proof.
  intros Hlevel Hl. unfold effective_level, js_not.
  destruct l as [v |]; [| exact Hlevel].
  destruct (Z.eqb v 0); [exact Hlevel | exact Hl].
Qed.

(** Lines 43 and 133-135: under the initial [Logger.minimum] ([Trace]) no
    call at a level of the enumeration is suppressed: every such call is the
    write of its line.  Under a minimum above [Fatal] every such call is
    suppressed. *)
Theorem extreme_minimum (call : Colors.fn -> string -> string)
        (rt : Runtime) (this : ref) (self : Logger) (m : string)
        (l : option LoggerLevel.t) :
  nth_error (heap rt) this = Some self ->
  LoggerLevel.recognized (_level self) ->
  match l with None => True | Some v => LoggerLevel.recognized v end ->
  (minimum rt = LoggerLevel.Trace ->
   log call this m l rt
   = write (select_writer (_ostream self) (effective_level (_level self) l))
           (encode (format_line call (utc_now rt)
                                (effective_level (_level self) l)
                                (_prefix self) m))
           rt)
  /\
  ((LoggerLevel.Fatal < minimum rt)%Z ->
   log call this m l rt = (Returned tt, rt)).
Proof.
  intros Hthis Hlevel Hl.
  assert (Hrec := effective_level_recognized _ l Hlevel Hl).
  unfold LoggerLevel.recognized in Hrec.
  rewrite (log_unfold call rt this self m l Hthis).
  split.
  - intros Hmin. rewrite Hmin. unfold LoggerLevel.Trace.
    destruct (Z.gtb_spec 0 (effective_level (_level self) l));
      [lia | reflexivity].
  - unfold LoggerLevel.Fatal. intros Hmin.
    destruct (Z.gtb_spec (minimum rt) (effective_level (_level self) l));
      [reflexivity | lia].
Qed.

Lemma extreme_minimum_witness :
  let rt := final (constructor (Some LoggerLevel.Warn) (Some "net") None)
                  (module_loaded noon healthy) in
  written (final (info ansi 0 "hello") rt)
  = [(Deno.stdout,
      encode (format_line ansi noon LoggerLevel.Info "net" "hello"))].
Proof.
  cbv zeta. unfold final at 1, info.
  rewrite (proj1 (extreme_minimum ansi
                    (final (constructor (Some LoggerLevel.Warn) (Some "net") None)
                           (module_loaded noon healthy))
                    0 (mkLogger LoggerLevel.Warn "net" None) "hello"
                    (Some LoggerLevel.Info) eq_refl
                    ltac:(vm_compute; split; discriminate)
                    ltac:(vm_compute; split; discriminate))
                 eq_refl).
  reflexivity.
Defined.

(** ** The wrappers *)

(** Lines 93-119: on a Logger with no sink override, [info], [warn], [error]
    and [fatal] work at their own level whatever the level of the instance:
    when the minimum does not exceed that level the call is the write of a
    line tagged and colored for it, on the standard output for [info] and
    [warn] and on the standard error for [error] and [fatal]; otherwise the
    call is suppressed. *)
Theorem wrappers_use_their_own_level (call : Colors.fn -> string -> string)
        (rt : Runtime) (this : ref) (self : Logger) (m : string) :
  nth_error (heap rt) this = Some self ->
  _ostream self = None ->
  let line := fun (f : Colors.fn) (name : string) =>
    encode (utc_now rt ++ " : (" ++ call f (name ++ "@" ++ _prefix self)
                       ++ ") Â» " ++ m ++ LF) in
  info call this m rt
  = (if Z.gtb (minimum rt) LoggerLevel.Info then (Returned tt, rt)
     else write Deno.stdout (line Colors.brightBlue "Info") rt)
  /\ warn call this m rt
     = (if Z.gtb (minimum rt) LoggerLevel.Warn then (Returned tt, rt)
        else write Deno.stdout (line Colors.yellow "Warn") rt)
  /\ error call this m rt
     = (if Z.gtb (minimum rt) LoggerLevel.Error then (Returned tt, rt)
        else write Deno.stderr (line Colors.red "Error") rt)
  /\ fatal call this m rt
     = (if Z.gtb (minimum rt) LoggerLevel.Fatal then (Returned tt, rt)
        else write Deno.stderr (line Colors.brightRed "Fatal") rt).
Proof.
  intros Hthis Hnone line.
  unfold info, warn, error, fatal.
  rewrite !(log_unfold call rt this self m _ Hthis).
  repeat split; reflexivity.
Qed.

Lemma wrappers_use_their_own_level_witness :
  let rt := mkRuntime LoggerLevel.Info
                      [mkLogger LoggerLevel.Trace "db" None]
                      noon healthy [] in
  written (final (error ansi 0 "down") rt)
  = [(Deno.stderr,
      encode (noon ++ " : (" ++ ansi Colors.red "Error@db"
                   ++ ") Â» down" ++ LF))].
Proof.
  cbv zeta. unfold final.
  rewrite (proj1 (proj2 (proj2
             (wrappers_use_their_own_level ansi
                (mkRuntime LoggerLevel.Info
                           [mkLogger LoggerLevel.Trace "db" None]
                           noon healthy [])
                0 (mkLogger LoggerLevel.Trace "db" None) "down"
                eq_refl eq_refl)))).
  reflexivity.
Defined.

(** ** Several objects *)

(** Lines 73-75 and 126-150: the level is a field of the instance.  After
    [lg.level = lv] a call [lg.log(m)] without a level works at [lv]; and
    assigning the level of another Logger changes neither how the call
    completes nor what it writes. *)
Theorem level_is_per_instance (call : Colors.fn -> string -> string)
        (rt : Runtime) (this other : ref) (self o : Logger) (m : string)
        (l : option LoggerLevel.t) (lv : LoggerLevel.t) :
  nth_error (heap rt) this = Some self ->
  nth_error (heap rt) other = Some o ->
  other <> this ->
  let rt' := final (set_level this lv) rt in
  (set_level this lv ;; log call this m None) rt
  = (if Z.gtb (minimum rt) lv then (Returned tt, rt')
     else write (select_writer (_ostream self) lv)
                (encode (format_line call (utc_now rt) lv (_prefix self) m))
                rt')
  /\ outcome (set_level other lv ;; log call this m l) rt
     = outcome (log call this m l) rt
  /\ written (final (set_level other lv ;; log call this m l) rt)
     = written (final (log call this m l) rt).
Proof.
  intros Hthis Hother Hne rt'.
  split.
  - unfold bind at 1.
    assert (Hset : set_level this lv rt = (Returned tt, rt'))
      by (unfold rt', final, set_level, bind, deref; rewrite Hthis;
          reflexivity).
    rewrite Hset.
    assert (Hnew : nth_error (heap rt') this
                   = Some (mkLogger lv (_prefix self) (_ostream self))).
    { unfold rt', final, set_level, bind, deref, store. rewrite Hthis.
      exact (update_same _ _ _ _ Hthis). }
    rewrite (log_unfold call rt' this _ m None Hnew).
    assert (Hmin : minimum rt' = minimum rt)
      by (unfold rt', final, set_level, bind, deref, store; rewrite Hthis;
          reflexivity).
    assert (Hnow : utc_now rt' = utc_now rt)
      by (unfold rt', final, set_level, bind, deref, store; rewrite Hthis;
          reflexivity).
    rewrite Hmin, Hnow. reflexivity.
  - set (rto := final (set_level other lv) rt).
    assert (Hset : set_level other lv rt = (Returned tt, rto))
      by (unfold rto, final, set_level, bind, deref; rewrite Hother;
          reflexivity).
    assert (Hkeep : nth_error (heap rto) this = Some self).
    { unfold rto, final, set_level, bind, deref, store. rewrite Hother.
      cbn [snd heap]. rewrite update_other by (intros E; apply Hne; now symmetry).
      exact Hthis. }
    unfold outcome, final. unfold bind at 1 2. rewrite Hset.
    rewrite (log_unfold call rto this self m l Hkeep).
    rewrite (log_unfold call rt this self m l Hthis).
    assert (Hfields : minimum rto = minimum rt /\ utc_now rto = utc_now rt
                      /\ accepts rto = accepts rt
                      /\ written rto = written rt)
      by (unfold rto, final, set_level, bind, deref, store; rewrite Hother;
          repeat split; reflexivity).
    destruct Hfields as (Hmin & Hnow & Hacc & Hwr).
    rewrite Hmin, Hnow.
    destruct (Z.gtb (minimum rt) (effective_level (_level self) l)).
    + split; [reflexivity | exact Hwr].
    + unfold write. rewrite Hacc.
      destruct (accepts rt (select_writer (_ostream self)
                              (effective_level (_level self) l)));
        cbn [fst snd written]; rewrite ?Hwr; split; reflexivity.
Qed.

Lemma level_is_per_instance_witness :
  let rt := mkRuntime LoggerLevel.Warn
                      [mkLogger LoggerLevel.Info "a" None;
                       mkLogger LoggerLevel.Info "b" None]
                      noon healthy [] in
  written (final (set_level 1 LoggerLevel.Fatal ;; log ansi 0 "m" None) rt)
  = written (final (log ansi 0 "m" None) rt).
Proof.
  cbv zeta.
  exact (proj2 (proj2
           (level_is_per_instance ansi
              (mkRuntime LoggerLevel.Warn
                         [mkLogger LoggerLevel.Info "a" None;
                          mkLogger LoggerLevel.Info "b" None]
                         noon healthy [])
              0 1 (mkLogger LoggerLevel.Info "a" None)
              (mkLogger LoggerLevel.Info "b" None) "m" None LoggerLevel.Fatal
              eq_refl eq_refl ltac:(discriminate)))).
Defined.

(** ** Levels, colors and tags *)

Lemma recognized_cases (l : LoggerLevel.t) :
  LoggerLevel.recognized l ->
  l = LoggerLevel.Trace \/ l = LoggerLevel.Info \/ l = LoggerLevel.Warn
  \/ l = LoggerLevel.Error \/ l = LoggerLevel.Fatal.
Proof.
  unfold LoggerLevel.recognized, LoggerLevel.Trace, LoggerLevel.Info,
    LoggerLevel.Warn, LoggerLevel.Error, LoggerLevel.Fatal.
  lia.
Qed.

(** Lines 30-40: [logger_level_color] answers white for exactly the numbers
    that are no member of the enumeration, and gives different members
    different colors: the color of a tag tells the level. *)
Theorem colors_identify_levels :
  (forall l, logger_level_color l = Colors.white
             <-> ~ LoggerLevel.recognized l)
  /\
  (forall l l', LoggerLevel.recognized l -> LoggerLevel.recognized l' ->
                logger_level_color l = logger_level_color l' -> l = l').
Proof.
  split.
  - intros l. split; [| apply unrecognized_color].
    intros Hwhite Hrec.
    destruct (recognized_cases l Hrec) as [E | [E | [E | [E | E]]]];
      rewrite E in Hwhite; discriminate Hwhite.
  - intros l l' Hl Hl' Hsame.
    destruct (recognized_cases l Hl) as [E | [E | [E | [E | E]]]];
      destruct (recognized_cases l' Hl') as [E' | [E' | [E' | [E' | E']]]];
      rewrite E, E' in *; try reflexivity; discriminate Hsame.
Qed.

Lemma colors_identify_levels_witness :
  logger_level_color 5%Z = Colors.white
  /\ logger_level_color (-1)%Z = Colors.white.
Proof.
  split.
  - apply (proj1 colors_identify_levels 5%Z).
    unfold LoggerLevel.recognized. lia.
  - apply (proj1 colors_identify_levels (-1)%Z).
    unfold LoggerLevel.recognized. lia.
Defined.

(** Lines 22-24 and 149: for members of the enumeration the tag
    [LEVELNAME@prefix] determines both the level and the prefix. *)
Theorem tag_identifies_level_and_prefix (l l' : LoggerLevel.t)
        (p p' : string) :
  LoggerLevel.recognized l -> LoggerLevel.recognized l' ->
  tag l p = tag l' p' ->
  l = l' /\ p = p'.
Proof.
  intros Hl Hl' Htag.
  destruct (recognized_cases l Hl) as [E | [E | [E | [E | E]]]];
    destruct (recognized_cases l' Hl') as [E' | [E' | [E' | [E' | E']]]];
    rewrite E, E' in *; cbv in Htag;
    first [ discriminate Htag
          | injection Htag as Hp; split; [reflexivity | exact Hp] ].
Qed.

Lemma tag_identifies_level_and_prefix_witness :
  LoggerLevel.Warn = LoggerLevel.Warn /\ "net" = "net".
Proof.
  apply (tag_identifies_level_and_prefix LoggerLevel.Warn LoggerLevel.Warn
                                         "net" "net").
  - unfold LoggerLevel.recognized. vm_compute. split; discriminate.
  - unfold LoggerLevel.recognized. vm_compute. split; discriminate.
  - reflexivity.
Defined.

(** ** The message *)

Lemma append_cancel_l (a x y : string) : a ++ x = a ++ y -> x = y.
Proof.
  induction a as [| c a IH]; intros Heq; [exact Heq |].
  injection Heq as Heq. exact (IH Heq).
Qed.

Lemma append_LF_cancel (x y : string) : x ++ LF = y ++ LF -> x = y.
Proof.
  revert y. induction x as [| c x IH]; intros [| d y] Heq.
  - reflexivity.
  - injection Heq as _ Heq. destruct y; discriminate Heq.
  - injection Heq as _ Heq. destruct x; discriminate Heq.
  - injection Heq as Hc Heq. rewrite Hc, (IH y Heq). reflexivity.
Qed.

Lemma encode_injective (s s' : string) : encode s = encode s' -> s = s'.
Proof.
  unfold encode. intros Heq.
  rewrite <- (string_of_list_byte_of_string s),
          <- (string_of_list_byte_of_string s').
  now rewrite Heq.
Qed.

(** Line 149, for well-formed strings (no lone surrogate, which the encoder
    would replace): the message is copied into the line as it is.  Two calls
    of the same Logger at the same level and clock reading that write the
    same bytes were given the same message; and the bytes of a call are the
    bytes of a fixed head, then the message, then one line feed. *)
Theorem message_copied_verbatim (call : Colors.fn -> string -> string)
        (now : string) (l : LoggerLevel.t) (prefix : string) :
  (forall m m',
      encode (format_line call now l prefix m)
      = encode (format_line call now l prefix m') -> m = m')
  /\
  (forall m,
      encode (format_line call now l prefix m)
      = (encode (now ++ " : (" ++ call (logger_level_color l) (tag l prefix)
                     ++ ") Â» ")
         ++ encode m ++ encode LF)%list).
Proof.
  split.
  - intros m m' Heq. apply encode_injective in Heq.
    unfold format_line in Heq.
    apply append_cancel_l in Heq.
    apply (append_cancel_l " : (") in Heq.
    apply append_cancel_l in Heq.
    apply (append_cancel_l ") Â» ") in Heq.
    exact (append_LF_cancel m m' Heq).
  - intros m. unfold format_line, encode.
    assert (Happ : forall a b,
               list_byte_of_string (a ++ b)
               = (list_byte_of_string a ++ list_byte_of_string b)%list).
    { intros a b. unfold list_byte_of_string.
      induction a as [| c a IH]; [reflexivity |].
      cbn [append list_ascii_of_string map app]. now rewrite IH. }
    change (now ++ " : (" ++ call (logger_level_color l) (tag l prefix)
                ++ ") Â» " ++ m ++ LF)
      with (now ++ (" : (" ++ (call (logger_level_color l) (tag l prefix)
                                ++ (") Â» " ++ (m ++ LF))))).
    rewrite !Happ, <- !app_assoc.
    reflexivity.
Qed.

Lemma message_copied_verbatim_witness :
  "ready" = "ready".
Proof.
  apply (proj1 (message_copied_verbatim ansi noon LoggerLevel.Info "None")
               "ready" "ready").
  reflexivity.
Defined.

(** ** An explicit level *)

(** Lines 127-135 and 141-149: on a Logger with no sink override, an
    integer level argument other than [Trace] (0) replaces the level of the
    instance for the whole call: the test against [Logger.minimum], the choice between the
    standard streams, the color and the name in the tag all use the
    argument, and the level of the instance plays no part. *)
Theorem explicit_level_is_used (call : Colors.fn -> string -> string)
        (rt : Runtime) (this : ref) (self : Logger) (m : string)
        (v : LoggerLevel.t) :
  nth_error (heap rt) this = Some self ->
  _ostream self = None ->
  v <> LoggerLevel.Trace ->
  log call this m (Some v) rt
  = (if Z.gtb (minimum rt) v then (Returned tt, rt)
     else write (if Z.eqb v LoggerLevel.Fatal || Z.eqb v LoggerLevel.Error
                 then Deno.stderr else Deno.stdout)
                (encode (utc_now rt ++ " : ("
                           ++ call (logger_level_color v)
                                   (interpolate (LoggerLevel.name v)
                                      ++ "@" ++ _prefix self)
                           ++ ") Â» " ++ m ++ LF))
                rt).
Proof.
  intros Hthis Hnone Hv.
  rewrite (log_unfold call rt this self m (Some v) Hthis).
  rewrite (effective_level_given (_level self) v Hv).
  reflexivity.
Qed.

Lemma explicit_level_is_used_witness :
  let rt := mkRuntime LoggerLevel.Warn
                      [mkLogger LoggerLevel.Trace "db" None]
                      noon healthy [] in
  written (final (log ansi 0 "slow query" (Some LoggerLevel.Warn)) rt)
  = [(Deno.stdout,
      encode (noon ++ " : (" ++ ansi Colors.yellow "Warn@db"
                   ++ ") Â» slow query" ++ LF))].
Proof.
  cbv zeta. unfold final.
  rewrite (explicit_level_is_used ansi
             (mkRuntime LoggerLevel.Warn
                        [mkLogger LoggerLevel.Trace "db" None]
                        noon healthy [])
             0 (mkLogger LoggerLevel.Trace "db" None) "slow query"
             LoggerLevel.Warn eq_refl eq_refl ltac:(discriminate)).
  reflexivity.
Defined.

(** * Where the code departs from the specification's effective level

    The calls below are evaluated on the code.  In each of them the level
    argument is [Trace], which line 127 takes for a missing argument (the
    slip shown for C2), so the level the specification calls effective
    ([spec_effective_level]) is not the level the call works with. *)

(** C4, on the code: a Logger of level [Error] with no sink override, under
    the initial minimum, and the call [trace("t")].  Its effective level is
    [Trace] and it is not suppressed, so the claim sends its line to the
    standard output.  The code writes the line, tagged [Error@e], to the
    standard error. *)
Theorem C4_trace_line_on_stderr (call : Colors.fn -> string -> string) :
  let rt := final (constructor (Some LoggerLevel.Error) (Some "e") None)
                  (module_loaded noon healthy) in
  nth_error (heap rt) 0 = Some (mkLogger LoggerLevel.Error "e" None)
  /\ spec_effective_level LoggerLevel.Error (Some LoggerLevel.Trace)
     = LoggerLevel.Trace
  /\ Z.leb (minimum rt) LoggerLevel.Trace = true
  /\ written (final (trace call 0 "t") rt)
     = [(Deno.stderr,
         encode (noon ++ " : (" ++ call Colors.red "Error@e"
                      ++ ") Â» t" ++ LF))].
Proof.
  cbv zeta.
  split; [reflexivity |].
  split; [reflexivity |].
  split; [reflexivity |].
  unfold trace, final at 1.
  rewrite (log_unfold call _ 0 (mkLogger LoggerLevel.Error "e" None))
    by reflexivity.
  reflexivity.
Qed.

(** C6, on the code: a Logger of level [Warn], the minimum set to [Info],
    nothing written yet, and the call [log("x", LoggerLevel.Trace)].  Its
    effective level [Trace] is strictly below the minimum, so the claim
    makes it a silent no-op.  The code returns with a line written to the
    standard output. *)
Theorem C6_call_below_minimum_writes (call : Colors.fn -> string -> string) :
  let rt := final (r <- constructor (Some LoggerLevel.Warn) (Some "net") None ;;
                   write_minimum LoggerLevel.Info)
                  (module_loaded noon healthy) in
  nth_error (heap rt) 0 = Some (mkLogger LoggerLevel.Warn "net" None)
  /\ written rt = []
  /\ Z.ltb (spec_effective_level LoggerLevel.Warn (Some LoggerLevel.Trace))
           (minimum rt) = true
  /\ outcome (log call 0 "x" (Some LoggerLevel.Trace)) rt = Returned tt
  /\ written (final (log call 0 "x" (Some LoggerLevel.Trace)) rt)
     = [(Deno.stdout,
         encode (noon ++ " : (" ++ call Colors.yellow "Warn@net"
                      ++ ") Â» x" ++ LF))].
Proof.
  cbv zeta.
  split; [reflexivity |].
  split; [reflexivity |].
  split; [reflexivity |].
  unfold outcome, final at 1 3.
  rewrite (log_unfold call _ 0 (mkLogger LoggerLevel.Warn "net" None))
    by reflexivity.
  split; reflexivity.
Qed.

(** C10, on the code: under the minimum [Info], the call
    [log("x", LoggerLevel.Trace)] on a Logger of level [Warn] and the call
    [log("y")] on a Logger of level [Trace].  Both have the effective level
    [Trace] and run under the same minimum, so the claim gives them the same
    decision.  The code emits the first and suppresses the second. *)
Theorem C10_same_level_different_decision
        (call : Colors.fn -> string -> string) :
  let rt1 := mkRuntime LoggerLevel.Info
                       [mkLogger LoggerLevel.Warn "a" None]
                       noon healthy [] in
  let rt2 := mkRuntime LoggerLevel.Info
                       [mkLogger LoggerLevel.Trace "b" None]
                       noon healthy [] in
  minimum rt1 = minimum rt2
  /\ spec_effective_level LoggerLevel.Warn (Some LoggerLevel.Trace)
     = spec_effective_level LoggerLevel.Trace None
  /\ produced rt1 (final (log call 0 "x" (Some LoggerLevel.Trace)) rt1) = true
  /\ produced rt2 (final (log call 0 "y" None) rt2) = false.
Proof.
  cbv zeta.
  split; [reflexivity |].
  split; [reflexivity |].
  unfold final.
  rewrite (log_unfold call _ 0 (mkLogger LoggerLevel.Warn "a" None))
    by reflexivity.
  rewrite (log_unfold call _ 0 (mkLogger LoggerLevel.Trace "b" None))
    by reflexivity.
  split; reflexivity.
Qed.

(** * The bytes of the closing separator *)

(** C5, on the code: a default Logger under the initial minimum and the call
    [log("ready")].  The claim's line has the closing separator [") » "],
    whose guillemet is the two bytes C2 BB.  The template of line 149 holds
    the four bytes C3 82 C2 BB in its place, and so does the line written:
    it is not the line of the claim, the claim's separator occurs nowhere in
    it, and reading it back by that separator yields nothing. *)
Theorem C5_closing_separator_bytes :
  let rt := final (constructor None None None) (module_loaded noon healthy) in
  let line := encode (format_line ansi noon LoggerLevel.Info "None" "ready") in
  let claimed := encode (noon ++ " : (" ++ ansi Colors.brightBlue "Info@None"
                              ++ spec_closing ++ "ready" ++ LF) in
  written (final (log ansi 0 "ready" None) rt) = [(Deno.stdout, line)]
  /\ encode closing = [x29; x20; xc3; x82; xc2; xbb; x20]
  /\ encode spec_closing = [x29; x20; xc2; xbb; x20]
  /\ List.length line = S (S (List.length claimed))
  /\ occurs spec_closing (string_of_list_byte line) = false
  /\ (forall strip, parse_with opening spec_closing strip line = None)
  /\ (forall strip,
         parse_with opening spec_closing strip claimed
         = Some (noon, strip (ansi Colors.brightBlue "Info@None"), "ready")).
Proof.
  cbv zeta.
  split; [reflexivity |].
  split; [reflexivity |].
  split; [reflexivity |].
  split; [vm_compute; reflexivity |].
  split; [vm_compute; reflexivity |].
  split; intros strip; reflexivity.
Qed.
